(** * pinbot: the callbacks of the Matrix pin bot

    A shallow embedding of [src/pinbot/callbacks.py] (class [Callbacks]):
    the invite handler with its bounded join loop, the reaction handler that
    archives a pinned message into the pins room, and the small handlers
    around them.  The handlers talk to the Matrix SDK ([nio.AsyncClient]);
    the model keeps every SDK call, sleep and log line of a handler as a node
    of a program tree, and runs the tree against an arbitrary client. *)

From Stdlib Require Import String Ascii List ZArith Lia Bool.
From stdpp Require Import base tactics option list strings gmap pretty.
Import ListNotations.

#[local] Set Warnings "-register-all".
#[local] Open Scope string_scope.
#[local] Open Scope list_scope.

(* ===================================================================== *)
(** ** Python strings *)
(* ===================================================================== *)

(** A Python [str] is kept as its UTF-8 bytes.  The two places where the
    source looks at single characters ([sender[0]] and iterating over the
    literal ['\n> ']) go through [chars], which cuts the bytes into code
    points. *)

Definition nl : string := String "010" EmptyString.
Definition dquote : string := String "034" EmptyString.

(** Number of bytes of the UTF-8 sequence that starts with byte [b]. *)
Definition utf8_width (b : ascii) : nat :=
  let n := nat_of_ascii b in
  if (n <? 192)%nat then 1
  else if (n <? 224)%nat then 2
  else if (n <? 240)%nat then 3 else 4.

Definition flush (cur : string) : list string :=
  match cur with EmptyString => [] | _ => [cur] end.

(** [list(s)]: the characters of [s], each as a string of its own. *)
Fixpoint chars_from (pending : nat) (cur : string) (s : string) : list string :=
  match s with
  | EmptyString => flush cur
  | String b rest =>
      match pending with
      | O => flush cur ++ chars_from (utf8_width b - 1) (String b EmptyString) rest
      | S p => chars_from p (cur +:+ String b EmptyString) rest
      end
  end.

Definition chars (s : string) : list string := chars_from 0 EmptyString s.

(** [sep.join(items)] *)
Fixpoint str_join (sep : string) (items : list string) : string :=
  match items with
  | [] => EmptyString
  | [x] => x
  | x :: rest => x +:+ sep +:+ str_join sep rest
  end.

(** [s.split(sep)] for a one-byte separator: the pieces between separators. *)
Fixpoint split_on (sep : ascii) (cur : string) (s : string) : list string :=
  match s with
  | EmptyString => [cur]
  | String b rest =>
      if Ascii.eqb b sep then cur :: split_on sep EmptyString rest
      else split_on sep (cur +:+ String b EmptyString) rest
  end.

Definition lines (s : string) : list string := split_on "010"%char EmptyString s.

Fixpoint starts_with (p s : string) : bool :=
  match p, s with
  | EmptyString, _ => true
  | String a p', String b s' => Ascii.eqb a b && starts_with p' s'
  | String _ _, EmptyString => false
  end.

(** [needle in hay] *)
Fixpoint contains (needle hay : string) : bool :=
  starts_with needle hay ||
  match hay with
  | EmptyString => false
  | String _ hay' => contains needle hay'
  end.

(** [hay.count(needle)] for a needle that cannot overlap itself. *)
Fixpoint count_sub (needle hay : string) : nat :=
  match hay with
  | EmptyString => 0
  | String _ hay' =>
      (if starts_with needle hay then 1 else 0) + count_sub needle hay'
  end.

(* ===================================================================== *)
(** ** JSON values: [event.source] *)
(* ===================================================================== *)

(** [event.source] is the event as the server sent it: a dict of JSON
    values (the numbers among them are kept as integers).  Nothing in the
    handlers checks the shape of what is inside. *)
Inductive json : Type :=
| JNull
| JBool (b : bool)
| JNum (n : Z)
| JStr (s : string)
| JList (l : list json)
| JDict (d : gmap string json).

(** A Python [str] is one of these values. *)
Coercion JStr : string >-> json.

Inductive exn : Type :=
| AttributeError   (** [.get] on a value that is no dict *)
| IndexError       (** [s[0]] on the empty string *)
| TypeError.       (** [x in s] on a set, for a list or a dict [x]:
                       unhashable type *)

Inductive result (A : Type) : Type :=
| Returned (a : A)
| Raised (e : exn).
Arguments Returned {A} a.
Arguments Raised {A} e.

(** [v.get(k, default)]: only a dict has [get]. *)
Definition dict_get (v : json) (k : string) (default : json) : result json :=
  match v with
  | JDict d => Returned (match d !! k with Some x => x | None => default end)
  | _ => Raised AttributeError
  end.

(** Python truthiness, as [if reacted_to and ...] tests it. *)
Definition truthy (v : json) : bool :=
  match v with
  | JNull => false
  | JBool b => b
  | JNum n => negb (n =? 0)%Z
  | JStr s => negb (String.eqb s EmptyString)
  | JList l => match l with [] => false | _ => true end
  | JDict d => negb (bool_decide (d = ∅))
  end.

(** The values that have a hash, and so can be looked up in a set and
    added to it: everything but lists and dicts. *)
Inductive hashable : Type :=
| HNone
| HBool (b : bool)
| HInt (n : Z)
| HStr (s : string).

(** [hash(v)], as [v in s] and [s.add(v)] call it. *)
Definition hash_of (v : json) : result hashable :=
  match v with
  | JNull => Returned HNone
  | JBool b => Returned (HBool b)
  | JNum n => Returned (HInt n)
  | JStr s => Returned (HStr s)
  | JList _ => Raised TypeError
  | JDict _ => Raised TypeError
  end.

Definition value_of (k : hashable) : json :=
  match k with
  | HNone => JNull
  | HBool b => JBool b
  | HInt n => JNum n
  | HStr s => JStr s
  end.

(** [str(k)], as an f-string writes [{k}]. *)
Definition py_str (k : hashable) : string :=
  match k with
  | HNone => "None"
  | HBool true => "True"
  | HBool false => "False"
  | HInt n => pretty n
  | HStr s => s
  end.

(** [v == s] for a string literal [s]. *)
Definition eq_str (v : json) (s : string) : bool :=
  match v with
  | JStr s' => String.eqb s' s
  | _ => false
  end.

(* ===================================================================== *)
(** ** The SDK's types *)
(* ===================================================================== *)

Record MatrixRoom : Type := { room_id : string }.

Record UnknownEvent : Type :=
  { source : gmap string json; type : string; sender : string }.

Record InviteMemberEvent : Type := { invite_sender : string }.

Record MegolmEvent : Type := { event_id : string }.

Record SyncResponse : Type := { next_batch : string }.

Inductive JoinResult : Type :=
| JoinError (message : string)
| JoinResponse (joined_room_id : string).

(** Modelled from the spec: the event class hierarchy of the SDK is not part
    of the sources; the spec's OriginalMessage has a sender, a plain body and
    an optional formatted body, and a fetched event may be an undecryptable
    variant (the source tests for it with [isinstance(_, MegolmEvent)]). *)
Inductive Event : Type :=
| RoomMessageText (msg_sender body : string) (formatted_body : option string)
| Undecryptable (enc_sender : string).

Inductive RoomGetEventResult : Type :=
| RoomGetEventError
| RoomGetEventResponse (event : Event).

Inductive RoomSendResult : Type :=
| RoomSendError
| RoomSendResponse (sent_event_id : string).

(** The dict handed to [room_send]: its four keys are fixed. *)
Record MessageContent : Type :=
  { msgtype : string;
    content_body : string;
    format : string;
    content_formatted_body : string }.

Inductive Level : Type := DEBUG | INFO | WARNING | ERROR.

(* ===================================================================== *)
(** ** Handler programs *)
(* ===================================================================== *)

(** A handler is a tree of the calls it awaits; each node waits for the
    SDK's answer.  The event id of a fetch and the arguments of a log line
    are the Python values the handler passes: no handler checks that they
    are strings. *)
Inductive prog (A : Type) : Type :=
| Ret (a : A)
| Join (room : string) (k : JoinResult -> prog A)
| Sleep (secs : nat) (k : prog A)
| RoomGetEvent (room : string) (event : json) (k : RoomGetEventResult -> prog A)
| RoomSend (room message_type : string) (content : MessageContent)
           (k : RoomSendResult -> prog A)
| Log (level : Level) (fmt : string) (args : list json) (k : prog A).
Arguments Ret {A} a.
Arguments Join {A} room k.
Arguments Sleep {A} secs k.
Arguments RoomGetEvent {A} room event k.
Arguments RoomSend {A} room message_type content k.
Arguments Log {A} level fmt args k.

Fixpoint pbind {A B : Type} (p : prog A) (f : A -> prog B) : prog B :=
  match p with
  | Ret a => f a
  | Join room k => Join room (fun r => pbind (k r) f)
  | Sleep secs k => Sleep secs (pbind k f)
  | RoomGetEvent room ev k => RoomGetEvent room ev (fun r => pbind (k r) f)
  | RoomSend room ty c k => RoomSend room ty c (fun r => pbind (k r) f)
  | Log lvl fmt args k => Log lvl fmt args (pbind k f)
  end.

(** What a run of a handler leaves behind, in the order it happened, each
    SDK call with the answer it got. *)
Inductive effect : Type :=
| EJoin (room : string) (result : JoinResult)
| ESleep (secs : nat)
| ERoomGetEvent (room : string) (event : json) (response : RoomGetEventResult)
| ERoomSend (room message_type : string) (content : MessageContent)
            (response : RoomSendResult)
| ELog (level : Level) (fmt : string) (args : list json).

Definition trace : Type := list effect.

(** The client: any function from what has happened so far and the call's
    arguments to an answer.  A call of the client always answers, also a
    fetch whose event id is no string. *)
Record AsyncClient : Type :=
  { join : trace -> string -> JoinResult;
    room_get_event : trace -> string -> json -> RoomGetEventResult;
    room_send : trace -> string -> string -> MessageContent -> RoomSendResult }.

(** [run c h p]: the effects of [p] after history [h], and its result. *)
Fixpoint run {A : Type} (c : AsyncClient) (h : trace) (p : prog A) : trace * A :=
  match p with
  | Ret a => ([], a)
  | Join room k =>
      let r := join c h room in
      let e := EJoin room r in
      let '(t, a) := run c (h ++ [e]) (k r) in (e :: t, a)
  | Sleep secs k =>
      let e := ESleep secs in
      let '(t, a) := run c (h ++ [e]) k in (e :: t, a)
  | RoomGetEvent room ev k =>
      let r := room_get_event c h room ev in
      let e := ERoomGetEvent room ev r in
      let '(t, a) := run c (h ++ [e]) (k r) in (e :: t, a)
  | RoomSend room ty content k =>
      let r := room_send c h room ty content in
      let e := ERoomSend room ty content r in
      let '(t, a) := run c (h ++ [e]) (k r) in (e :: t, a)
  | Log lvl fmt args k =>
      let e := ELog lvl fmt args in
      let '(t, a) := run c (h ++ [e]) k in (e :: t, a)
  end.

(* ===================================================================== *)
(** ** The bot's state *)
(* ===================================================================== *)

Record Config : Type :=
  { user_id : string; pins_room : string; command_prefix : string }.

(** [Callbacks.__init__]: [client] is the [AsyncClient] a handler is run
    against, [store] is never used by a handler.  The set [self.pinned] is
    kept in two parts: [pinned] has the strings in it, [pinned_other] what
    else is in it, an int as [Some n] (a bool is the int it equals: [True
    == 1] and both hash alike) and [None] as [None]. *)
Record Callbacks : Type :=
  { config : Config;
    self_command_prefix : string;
    synced : bool;
    pinned : gset string;
    pinned_other : gset (option Z) }.

Definition __init__ (cfg : Config) : Callbacks :=
  {| config := cfg;
     self_command_prefix := command_prefix cfg;
     synced := false;
     pinned := ∅;
     pinned_other := ∅ |}.

(** A method: reads and writes [self], awaits calls, returns or raises. *)
Definition M (A : Type) : Type := Callbacks -> prog (Callbacks * result A).

Definition ret {A : Type} (a : A) : M A :=
  fun self => Ret (self, Returned a).

Definition raise {A : Type} (e : exn) : M A :=
  fun self => Ret (self, Raised e).

Definition bind {A B : Type} (m : M A) (f : A -> M B) : M B :=
  fun self =>
    pbind (m self)
      (fun sr =>
         match snd sr with
         | Returned a => f a (fst sr)
         | Raised e => Ret (fst sr, Raised e)
         end).

Declare Scope py_scope.
Delimit Scope py_scope with py.
Notation "x <- m ;; k" := (bind m (fun x => k))
  (at level 100, m at next level, right associativity) : py_scope.
Notation "m ;; k" := (bind m (fun _ => k))
  (at level 100, right associativity) : py_scope.
#[local] Open Scope py_scope.

Definition get_self : M Callbacks :=
  fun self => Ret (self, Returned self).

Definition set_synced (b : bool) : M unit :=
  fun self =>
    Ret ({| config := config self;
            self_command_prefix := self_command_prefix self;
            synced := b;
            pinned := pinned self;
            pinned_other := pinned_other self |}, Returned tt).

(** [self] after [self.pinned.add(x)] for a string [x]. *)
Definition with_pinned (x : string) (self : Callbacks) : Callbacks :=
  {| config := config self;
     self_command_prefix := self_command_prefix self;
     synced := synced self;
     pinned := {[ x ]} ∪ pinned self;
     pinned_other := pinned_other self |}.

(** [self] after [self.pinned.add(x)] for an int or [None]. *)
Definition with_pinned_other (x : option Z) (self : Callbacks) : Callbacks :=
  {| config := config self;
     self_command_prefix := self_command_prefix self;
     synced := synced self;
     pinned := pinned self;
     pinned_other := {[ x ]} ∪ pinned_other self |}.

(** [self] after [self.pinned.add(k)] *)
Definition with_key (k : hashable) (self : Callbacks) : Callbacks :=
  match k with
  | HNone => with_pinned_other None self
  | HBool b => with_pinned_other (Some (Z.b2z b)) self
  | HInt n => with_pinned_other (Some n) self
  | HStr s => with_pinned s self
  end.

(** [self.pinned.add(k)] *)
Definition pinned_add (k : hashable) : M unit :=
  fun self => Ret (with_key k self, Returned tt).

Definition of_result {A : Type} (r : result A) : M A :=
  fun self => Ret (self, r).

Definition client_join (room : string) : M JoinResult :=
  fun self => Join room (fun r => Ret (self, Returned r)).

Definition asyncio_sleep (secs : nat) : M unit :=
  fun self => Sleep secs (Ret (self, Returned tt)).

Definition client_room_get_event (room : string) (ev : json)
  : M RoomGetEventResult :=
  fun self => RoomGetEvent room ev (fun r => Ret (self, Returned r)).

Definition client_room_send (room ty : string) (content : MessageContent)
  : M RoomSendResult :=
  fun self => RoomSend room ty content (fun r => Ret (self, Returned r)).

Definition logger (lvl : Level) (fmt : string) (args : list json) : M unit :=
  fun self => Log lvl fmt args (Ret (self, Returned tt)).

(* ===================================================================== *)
(** ** The handlers of [Callbacks] *)
(* ===================================================================== *)

(** The literal on line 111 of [callbacks.py], byte for byte as the source
    file stores it. *)
Definition pin_glyph : string :=
  string_of_list_ascii
    (map ascii_of_nat [195; 176; 197; 184; 226; 128; 156; 197; 146]).

(** Which [return] ended [_reaction].  Python returns [None] at each of
    them; the model returns the place, so that a theorem can name it. *)
Inductive Exit : Type :=
| ExitSyncing          (** line 84: not synced yet *)
| ExitPinsRoom         (** line 88: the reaction is in the pins room *)
| ExitGetEventError    (** line 96: the original event could not be fetched *)
| ExitUndecryptable    (** line 102: the original event is still encrypted *)
| ExitOwnMessage       (** line 106: the original event is the bot's own *)
| ExitNotPin           (** line 112: the emoji is not the pin *)
| ExitAlreadyPinned    (** line 118: the event id is in [self.pinned] *)
| ExitPinned.          (** line 160: sent and recorded *)

(** [event.source.get("content", {}).get("m.relates_to", {})] *)
Definition relates_to (event : UnknownEvent) : result json :=
  match dict_get (JDict (source event)) "content" (JDict ∅) with
  | Returned content => dict_get content "m.relates_to" (JDict ∅)
  | Raised e => Raised e
  end.

(** [event.source.get("content", {}).get("m.relates_to", {}).get("key")] *)
Definition reaction_key (event : UnknownEvent) : result json :=
  match relates_to event with
  | Returned relation => dict_get relation "key" JNull
  | Raised e => Raised e
  end.

(** [s[0]] *)
Definition str_index0 (s : string) : result string :=
  match chars s with
  | [] => Raised IndexError
  | c :: _ => Returned c
  end.

(** Line 124: [reacted_to_event.body.join('\n> ')].  The receiver of [join]
    is the separator and the argument the iterable, so the three characters
    of the literal are joined with the body between them. *)
Definition fallback_body (body : string) : string :=
  str_join body (chars (nl +:+ "> ")).

(** Lines 125-131: the plain text of the archived message. *)
Definition plain_body (msg_sender body : string) : result string :=
  match str_index0 msg_sender with
  | Returned s0 =>
      Returned (nl +:+ "> " +:+ s0 +:+ " " +:+ fallback_body body +:+ nl
                +:+ nl +:+ "Pinned" +:+ nl)
  | Raised e => Raised e
  end.

(** Line 135 *)
Definition quote_body (body : string) (formatted_body : option string) : string :=
  match formatted_body with
  | Some f => f
  | None => body
  end.

(** Lines 136-148: the HTML of the archived message. *)
Definition formatted (room_slug event_slug pinned_sender_pill quote : string)
  : string :=
  nl +:+ "<mx-reply>" +:+ nl
  +:+ "  <blockquote>" +:+ nl
  +:+ "    <a href=" +:+ dquote +:+ "https://matrix.to/#/" +:+ room_slug +:+ "/"
  +:+ event_slug +:+ dquote +:+ ">Pinned</a>" +:+ nl
  +:+ "    " +:+ pinned_sender_pill +:+ nl
  +:+ "    <br />" +:+ nl
  +:+ "    <!-- This is where the related event's HTML would be. -->" +:+ nl
  +:+ "    " +:+ quote +:+ nl
  +:+ "  </blockquote>" +:+ nl
  +:+ "</mx-reply>" +:+ nl.

Definition in_pinned (x : string) (self : Callbacks) : bool :=
  bool_decide (x ∈ pinned self).

Definition in_pinned_other (x : option Z) (self : Callbacks) : bool :=
  bool_decide (x ∈ pinned_other self).

(** [k in self.pinned] *)
Definition in_pinned_key (k : hashable) (self : Callbacks) : bool :=
  match k with
  | HNone => in_pinned_other None self
  | HBool b => in_pinned_other (Some (Z.b2z b)) self
  | HInt n => in_pinned_other (Some n) self
  | HStr s => in_pinned s self
  end.

Section Handlers.

(** [pinbot.chat_functions.make_pill] is not among the sources: the
    handlers are stated for any function in its place. *)
Variable make_pill : string -> string.

(** The [for attempt in range(3)] loop of [invite], with its [else]. *)
Fixpoint join_attempts (room : MatrixRoom) (attempts : list nat) : M unit :=
  match attempts with
  | [] => logger ERROR "Unable to join room: %s" [JStr (room_id room)]
  | attempt :: rest =>
      result <- client_join (room_id room) ;;
      match result with
      | JoinError message =>
          logger ERROR
            ("Error joining room " +:+ room_id room +:+ " (attempt %d): %s")
            [JNum (Z.of_nat attempt); JStr message] ;;
          asyncio_sleep 1 ;;
          join_attempts room rest
      | JoinResponse _ => ret tt
      end
  end.

Definition invite (room : MatrixRoom) (event : InviteMemberEvent) : M unit :=
  logger DEBUG
    ("Got invite to " +:+ room_id room +:+ " from " +:+ invite_sender event +:+ ".")
    [] ;;
  join_attempts room (seq 0 3) ;;
  logger INFO ("Joined " +:+ room_id room) [].

(** Lines 120-160 of [_reaction]: compose, send, record.  The id comes
    here past the test of line 114, which has hashed it. *)
Definition archive (room : MatrixRoom) (reacted_to_id : hashable)
    (msg_sender body : string) (formatted_body : option string) : M Exit :=
  let pinned_sender_pill := make_pill msg_sender in
  logger INFO ("Pinning `" +:+ body +:+ "`") [] ;;
  plain <- of_result (plain_body msg_sender body) ;;
  let html :=
    formatted (room_id room) (py_str reacted_to_id) pinned_sender_pill
      (quote_body body formatted_body) in
  self <- get_self ;;
  logger INFO "Pinning message by %s in %s to %s"
    [JStr pinned_sender_pill; value_of reacted_to_id;
     JStr (pins_room (config self))] ;;
  client_room_send (pins_room (config self)) "m.room.message"
    {| msgtype := "m.text";
       content_body := plain;
       format := "org.matrix.custom.html";
       content_formatted_body := html |} ;;
  pinned_add reacted_to_id ;;
  ret ExitPinned.

(** [reacted_to_id] is what [unknown] found under "event_id": the
    annotation [str] is not checked, and nothing in the handler needs a
    string before line 114. *)
Definition _reaction (room : MatrixRoom) (event : UnknownEvent)
    (reacted_to_id : json) : M Exit :=
  logger DEBUG
    ("Got reaction to " +:+ room_id room +:+ " from " +:+ sender event +:+ ".")
    [] ;;
  self <- get_self ;;
  if negb (synced self) then ret ExitSyncing
  else if String.eqb (room_id room) (pins_room (config self)) then ret ExitPinsRoom
  else
    event_response <- client_room_get_event (room_id room) reacted_to_id ;;
    match event_response with
    | RoomGetEventError =>
        logger WARNING "Error getting event that was reacted to (%s)"
          [reacted_to_id] ;;
        ret ExitGetEventError
    | RoomGetEventResponse (Undecryptable _) =>
        logger ERROR "Unable to decrypt event reacted to (%s)" [reacted_to_id] ;;
        ret ExitUndecryptable
    | RoomGetEventResponse (RoomMessageText msg_sender body formatted_body) =>
        if String.eqb msg_sender (user_id (config self)) then ret ExitOwnMessage
        else
          reaction_emoji <- of_result (reaction_key event) ;;
          if negb (eq_str reaction_emoji pin_glyph) then ret ExitNotPin
          else
            key <- of_result (hash_of reacted_to_id) ;;
            if in_pinned_key key self then
              logger INFO "Someone tried to pin %s multiple times, ignoring"
                [reacted_to_id] ;;
              ret ExitAlreadyPinned
            else archive room key msg_sender body formatted_body
    end.

Definition decryption_failure (room : MatrixRoom) (event : MegolmEvent) : M unit :=
  logger ERROR
    ("Failed to decrypt event '" +:+ event_id event +:+ "' in room '"
     +:+ room_id room +:+ "'!" +:+ nl +:+ nl
     +:+ "Tip: try using a different device ID in your config file and restart."
     +:+ nl +:+ nl
     +:+ "If all else fails, delete your store directory and let the bot recreate "
     +:+ "it (your reminders will NOT be deleted, but the bot may respond to existing "
     +:+ "commands a second time).")
    [].

(** [unknown] returns what [_reaction] returned when it called it.  What
    it finds under "event_id" goes to [_reaction] as it is, string or
    not. *)
Definition unknown (room : MatrixRoom) (event : UnknownEvent) : M (option Exit) :=
  let fall_through : M (option Exit) :=
    logger DEBUG
      ("Got unknown event with type to " +:+ type event +:+ " from "
       +:+ sender event +:+ " in " +:+ room_id room +:+ ".")
      [] ;;
    ret None in
  if String.eqb (type event) "m.reaction" then
    relation_dict <- of_result (relates_to event) ;;
    reacted_to <- of_result (dict_get relation_dict "event_id" JNull) ;;
    if truthy reacted_to then
      rel_type <- of_result (dict_get relation_dict "rel_type" JNull) ;;
      if eq_str rel_type "m.annotation" then
        x <- _reaction room event reacted_to ;;
        ret (Some x)
      else fall_through
    else fall_through
  else fall_through.

(** [sync]: the response is not looked at. *)
Definition sync (response : SyncResponse) : M unit := set_synced true.

End Handlers.

(* ===================================================================== *)
(** ** Reading a trace *)
(* ===================================================================== *)

Definition is_send (e : effect) : bool :=
  match e with ERoomSend _ _ _ _ => true | _ => false end.

Definition is_fetch (e : effect) : bool :=
  match e with ERoomGetEvent _ _ _ => true | _ => false end.

Definition is_join (e : effect) : bool :=
  match e with EJoin _ _ => true | _ => false end.

Definition is_failed_join (e : effect) : bool :=
  match e with EJoin _ (JoinError _) => true | _ => false end.

Definition is_joined (e : effect) : bool :=
  match e with EJoin _ (JoinResponse _) => true | _ => false end.

Definition sends (t : trace) : list effect := List.filter is_send t.
Definition fetches (t : trace) : list effect := List.filter is_fetch t.
Definition joins (t : trace) : list effect := List.filter is_join t.

(** Seconds slept in a trace. *)
Fixpoint slept (t : trace) : nat :=
  match t with
  | [] => 0
  | ESleep secs :: t' => secs + slept t'
  | _ :: t' => slept t'
  end.

(** The sends of a trace that the server accepted, as (room, content). *)
Fixpoint sent_ok (t : trace) : list (string * MessageContent) :=
  match t with
  | [] => []
  | ERoomSend room _ content (RoomSendResponse _) :: t' => (room, content) :: sent_ok t'
  | _ :: t' => sent_ok t'
  end.

(** The part of a trace after its first successful join. *)
Fixpoint after_joined (t : trace) : trace :=
  match t with
  | [] => []
  | e :: t' => if is_joined e then t' else after_joined t'
  end.

(** The debug line every run of [_reaction] starts with. *)
Definition reaction_entry (room : MatrixRoom) (event : UnknownEvent) : effect :=
  ELog DEBUG
    ("Got reaction to " +:+ room_id room +:+ " from " +:+ sender event +:+ ".")
    [].

(** The debug line [unknown] ends with when it does not call [_reaction]. *)
Definition unknown_note (room : MatrixRoom) (event : UnknownEvent) : effect :=
  ELog DEBUG
    ("Got unknown event with type to " +:+ type event +:+ " from "
     +:+ sender event +:+ " in " +:+ room_id room +:+ ".")
    [].

Definition some_exit (r : result Exit) : result (option Exit) :=
  match r with
  | Returned x => Returned (Some x)
  | Raised e => Raised e
  end.

Definition returned {A : Type} (r : result A) : bool :=
  match r with Returned _ => true | Raised _ => false end.

(** The entries of the relation metadata, where the event has them. *)
Definition content_of (event : UnknownEvent) : option json :=
  source event !! "content".

Definition relation_of (event : UnknownEvent) : option json :=
  match content_of event with
  | Some (JDict d) => d !! "m.relates_to"
  | _ => None
  end.

Definition relation_field (event : UnknownEvent) (k : string) : option json :=
  match relation_of event with
  | Some (JDict r) => r !! k
  | _ => None
  end.

Definition is_sleep (e : effect) : bool :=
  match e with ESleep _ => true | _ => false end.

(** The rooms and plain bodies of the sends of a trace. *)
Definition sent_plain (t : trace) : list (string * string) :=
  flat_map (fun e => match e with
                     | ERoomSend room _ content _ => [(room, content_body content)]
                     | _ => []
                     end) t.

(** The HTML bodies of the sends of a trace. *)
Definition sent_html (t : trace) : list string :=
  flat_map (fun e => match e with
                     | ERoomSend _ _ content _ => [content_formatted_body content]
                     | _ => []
                     end) t.

(** The relation metadata has the shape the lookups of [unknown] rely on:
    what is there under "content" and under "m.relates_to" is a dict. *)
Definition objects_where_present (event : UnknownEvent) : Prop :=
  (content_of event = None \/ exists d, content_of event = Some (JDict d))
  /\ (relation_of event = None \/ exists r, relation_of event = Some (JDict r)).

(** An entry of the relation metadata is missing: the content, the relation,
    the target event id (or it is empty), the relation kind, or the emoji. *)
Definition malformed (event : UnknownEvent) : Prop :=
  content_of event = None
  \/ relation_of event = None
  \/ relation_field event "event_id" = None
  \/ relation_field event "event_id" = Some (JStr EmptyString)
  \/ relation_field event "rel_type" = None
  \/ relation_field event "key" = None.

(* ===================================================================== *)
(** ** Clients to run against *)
(* ===================================================================== *)

(** A client that answers the n-th join and the n-th send from a script,
    and every fetch from a table. *)
Definition scripted (join_script : list JoinResult)
    (events : string -> json -> RoomGetEventResult)
    (send_script : list RoomSendResult) : AsyncClient :=
  {| join := fun h _ => nth (length (joins h)) join_script (JoinError "no answer");
     room_get_event := fun _ room ev => events room ev;
     room_send := fun h _ _ _ =>
       nth (length (sends h)) send_script RoomSendError |}.

(** The server answers the joins of [room] that come after [h] from
    [script], in order. *)
Definition join_answers (c : AsyncClient) (h : trace) (room : string)
    (script : list JoinResult) : Prop :=
  forall h' r,
    nth_error script (length (joins h')) = Some r ->
    join c (h ++ h') room = r.

(** The pill of the bot template this bot is built from. *)
Definition template_pill (user : string) : string :=
  "<a href=" +:+ dquote +:+ "https://matrix.to/#/" +:+ user +:+ dquote +:+ ">"
  +:+ user +:+ "</a>".

Definition reaction_source (target key : string) : gmap string json :=
  {[ "content" :=
       JDict {[ "m.relates_to" :=
                  JDict (<[ "event_id" := JStr target ]>
                          (<[ "rel_type" := JStr "m.annotation" ]>
                             {[ "key" := JStr key ]})) ]} ]}.

Definition reaction_event (from target key : string) : UnknownEvent :=
  {| source := reaction_source target key; type := "m.reaction"; sender := from |}.

Definition demo_config : Config :=
  {| user_id := "@pinbot:example.org";
     pins_room := "!pins:example.org";
     command_prefix := "!c" |}.

Definition demo_synced : Callbacks :=
  {| config := demo_config;
     self_command_prefix := "!c";
     synced := true;
     pinned := ∅;
     pinned_other := ∅ |}.

Definition demo_room : MatrixRoom := {| room_id := "!lounge:example.org" |}.


(** A server on which every event is a text message of Alice. *)
Definition alice_says (body : string) (formatted_body : option string)
  : string -> json -> RoomGetEventResult :=
  fun _ _ =>
    RoomGetEventResponse (RoomMessageText "@alice:example.org" body formatted_body).

Definition no_events : string -> json -> RoomGetEventResult :=
  fun _ _ => RoomGetEventError.

Definition pin_of_bob : UnknownEvent :=
  reaction_event "@bob:example.org" "$E1" pin_glyph.

Definition thumb_of_bob : UnknownEvent :=
  reaction_event "@bob:example.org" "$E1" "+1".

(** A reaction whose relation is the target id itself, not a dict. *)
Definition misrelated_event : UnknownEvent :=
  {| source := {[ "content" := JDict {[ "m.relates_to" := JStr "$E1" ]} ]};
     type := "m.reaction";
     sender := "@bob:example.org" |}.

(** An annotation of [$E1] without the emoji. *)
Definition keyless_event : UnknownEvent :=
  {| source :=
       {[ "content" :=
            JDict {[ "m.relates_to" :=
                       JDict (<[ "event_id" := JStr "$E1" ]>
                                {[ "rel_type" := JStr "m.annotation" ]}) ]} ]};
     type := "m.reaction";
     sender := "@bob:example.org" |}.

Definition carol_invites : InviteMemberEvent :=
  {| invite_sender := "@carol:example.org" |}.

(** What [plain_body] makes of Alice's message "hello". *)
Definition hello_plain : string :=
  nl +:+ "> @ " +:+ nl +:+ "hello>hello " +:+ nl +:+ nl +:+ "Pinned" +:+ nl.

Definition two_lines : string := "line1" +:+ nl +:+ "line2".

(** What [plain_body] makes of Alice's message [two_lines]. *)
Definition two_lines_plain : string :=
  nl +:+ "> @ " +:+ nl +:+ "line1" +:+ nl +:+ "line2>line1" +:+ nl +:+ "line2 "
  +:+ nl +:+ nl +:+ "Pinned" +:+ nl.

Definition markup_body : string := "<img src=x onerror=alert(1)>".

(* ===================================================================== *)
(** ** Handlers called one after another *)
(* ===================================================================== *)

(** Modelled from the spec: the registration of the handlers with the
    client is not among the sources; the spec has the event stream deliver
    its events one at a time to the handler of their kind, each handler
    running to completion before the next event (section 5).  A delivery
    is one call of a handler of [Callbacks]. *)
Inductive Delivery : Type :=
| DInvite (room : MatrixRoom) (event : InviteMemberEvent)
| DUnknown (room : MatrixRoom) (event : UnknownEvent)
| DDecryptionFailure (room : MatrixRoom) (event : MegolmEvent)
| DSync (response : SyncResponse).

Definition is_sync (d : Delivery) : bool :=
  match d with DSync _ => true | _ => false end.

Section Deliveries.

Variable make_pill : string -> string.
Variable c : AsyncClient.

(** One handler call on [self] after history [h]: what it did and the
    [self] it left, whether it returned or raised. *)
Definition deliver (h : trace) (self : Callbacks) (d : Delivery)
  : trace * Callbacks :=
  match d with
  | DInvite room event =>
      let out := run c h (invite room event self) in (fst out, fst (snd out))
  | DUnknown room event =>
      let out := run c h (unknown make_pill room event self) in
      (fst out, fst (snd out))
  | DDecryptionFailure room event =>
      let out := run c h (decryption_failure room event self) in
      (fst out, fst (snd out))
  | DSync response =>
      let out := run c h (sync response self) in (fst out, fst (snd out))
  end.

(** The deliveries of a list in order, on the same [Callbacks] object. *)
Fixpoint deliver_all (h : trace) (self : Callbacks) (ds : list Delivery)
  : trace * Callbacks :=
  match ds with
  | [] => ([], self)
  | d :: ds' =>
      let out := deliver h self d in
      let rest := deliver_all (h ++ fst out) (snd out) ds' in
      (fst out ++ fst rest, snd rest)
  end.

End Deliveries.

(** The two lines [invite] can end with. *)
Definition joined_line (room : MatrixRoom) : effect :=
  ELog INFO ("Joined " +:+ room_id room) [].

Definition unable_line (room : MatrixRoom) : effect :=
  ELog ERROR "Unable to join room: %s" [JStr (room_id room)].

(** A join, if [e] is one, is a join of [room]. *)
Definition joins_room (room : MatrixRoom) (e : effect) : Prop :=
  match e with
  | EJoin r _ => r = room_id room
  | _ => True
  end.

(** A send, if [e] is one, is the message event of lines 151-159 to the
    pins room of [cfg]. *)
Definition to_pins_room (cfg : Config) (e : effect) : Prop :=
  match e with
  | ERoomSend room ty content _ =>
      room = pins_room cfg /\ ty = "m.room.message"
      /\ msgtype content = "m.text" /\ format content = "org.matrix.custom.html"
  | _ => True
  end.

(** [len(self.pinned)] *)
Definition ledger (self : Callbacks) : nat :=
  size (pinned self) + size (pinned_other self).

(** [d] hands [unknown] an event of a room that is not the pins room. *)
Definition unknown_elsewhere (cfg : Config) (d : Delivery) : bool :=
  match d with
  | DUnknown room _ => negb (String.eqb (room_id room) (pins_room cfg))
  | _ => false
  end.

(** The address line 140 puts into the link. *)
Definition deep_link (room_slug event_slug : string) : string :=
  "https://matrix.to/#/" +:+ room_slug +:+ "/" +:+ event_slug.

(** A send, if [e] is one, has the link to the event in its HTML. *)
Definition links_to (room_slug event_slug : string) (e : effect) : Prop :=
  match e with
  | ERoomSend _ _ content _ =>
      contains (deep_link room_slug event_slug) (content_formatted_body content)
      = true
  | _ => True
  end.

(** A send, if [e] is one, has [body] in its plain text and [pill] and
    [quote] in its HTML. *)
Definition embeds (pill body quote : string) (e : effect) : Prop :=
  match e with
  | ERoomSend _ _ content _ =>
      contains body (content_body content) = true
      /\ contains pill (content_formatted_body content) = true
      /\ contains quote (content_formatted_body content) = true
  | _ => True
  end.

(** More servers and events to run on. *)
Definition bot_says (body : string) : string -> json -> RoomGetEventResult :=
  fun _ _ =>
    RoomGetEventResponse (RoomMessageText "@pinbot:example.org" body None).

Definition nobody_says (body : string) : string -> json -> RoomGetEventResult :=
  fun _ _ => RoomGetEventResponse (RoomMessageText EmptyString body None).

Definition sticker_event : UnknownEvent :=
  {| source := reaction_source "$E1" pin_glyph;
     type := "m.sticker";
     sender := "@bob:example.org" |}.

(** A relation of another kind: an edit of [$E1]. *)
Definition edit_event : UnknownEvent :=
  {| source :=
       {[ "content" :=
            JDict {[ "m.relates_to" :=
                       JDict (<[ "event_id" := JStr "$E1" ]>
                                (<[ "rel_type" := JStr "m.replace" ]>
                                   {[ "key" := JStr pin_glyph ]})) ]} ]};
     type := "m.reaction";
     sender := "@bob:example.org" |}.

Definition undecryptable_event : MegolmEvent := {| event_id := "$E9" |}.

(** A pin whose event id is a list, not a string. *)
Definition list_id : json := JList [JStr "$E1"].

Definition pin_of_list : UnknownEvent :=
  {| source :=
       {[ "content" :=
            JDict {[ "m.relates_to" :=
                       JDict (<[ "event_id" := list_id ]>
                                (<[ "rel_type" := JStr "m.annotation" ]>
                                   {[ "key" := JStr pin_glyph ]})) ]} ]};
     type := "m.reaction";
     sender := "@bob:example.org" |}.

(* ===================================================================== *)
(** ** Proof support *)
(* ===================================================================== *)

Ltac unfold_handlers :=
  unfold unknown, _reaction, archive, invite, sync, decryption_failure,
    bind, logger, get_self, ret, raise, of_result, client_join, asyncio_sleep,
    client_room_get_event, client_room_send, pinned_add, set_synced.

(** Split on the next test the handler makes (never on a stuck [run]). *)
Ltac next_test :=
  match goal with
  | |- context [match ?x with _ => _ end] =>
      lazymatch x with
      | context [run] => fail
      | context [pbind] => fail
      | _ => destruct x eqn:?
      end
  end.

Ltac walk := unfold_handlers; simpl; repeat (next_test; simpl).

(** Refute [objects_where_present] from what the lookups found. *)
Ltac misshapen Hc Hr :=
  let Hc' := fresh in
  let Hr' := fresh in
  intros (Hc' & Hr');
  unfold relation_of, content_of in Hc', Hr';
  try rewrite Hc in Hc'; try rewrite Hc in Hr';
  try rewrite Hr in Hr';
  destruct Hc' as [Hc'|[? Hc']]; destruct Hr' as [Hr'|[? Hr']];
  congruence.


Lemma in_pinned_false (x : string) (self : Callbacks) :
  in_pinned x self = false <-> x ∉ pinned self.
Proof. unfold in_pinned. apply bool_decide_eq_false. Qed.


Lemma sends_app (t1 t2 : trace) : sends (t1 ++ t2) = sends t1 ++ sends t2.
Proof. unfold sends. apply List.filter_app. Qed.

Lemma eq_str_pin : eq_str (JStr pin_glyph) pin_glyph = true.
Proof. apply String.eqb_refl. Qed.



(** With an event id in it, the relation is a dict inside a dict, and the
    emoji lookup of [_reaction] cannot raise. *)
Lemma reaction_key_of_field (event : UnknownEvent) (id : json) :
  relation_field event "event_id" = Some id ->
  reaction_key event
  = Returned (match relation_field event "key" with Some k => k | None => JNull end).
Proof.
  unfold reaction_key, relates_to, relation_field, relation_of, content_of, dict_get.
  destruct (source event !! "content") as [[| | | | |d]|]; try discriminate.
  destruct (d !! "m.relates_to") as [[| | | | |r]|]; try discriminate.
  reflexivity.
Qed.

(** Running a sequence: the first part, then the rest after it. *)
Lemma run_pbind {A B : Type} (c : AsyncClient) (p : prog A) (f : A -> prog B) :
  forall h,
    run c h (pbind p f)
    = (fst (run c h p) ++ fst (run c (h ++ fst (run c h p)) (f (snd (run c h p)))),
       snd (run c (h ++ fst (run c h p)) (f (snd (run c h p))))).
Proof.
  induction p as [a|room k IH|secs k IH|room ev k IH|room ty ct k IH|lvl fmt args k IH];
    intros h; simpl.
  - rewrite app_nil_r. destruct (run c h (f a)); reflexivity.
  - specialize (IH (join c h room) (h ++ [EJoin room (join c h room)])).
    rewrite IH. destruct (run c _ (k _)) as [t a]. simpl.
    rewrite <- app_assoc. reflexivity.
  - specialize (IH (h ++ [ESleep secs])).
    rewrite IH. destruct (run c _ k) as [t a]. simpl.
    rewrite <- app_assoc. reflexivity.
  - specialize (IH (room_get_event c h room ev)
                  (h ++ [ERoomGetEvent room ev (room_get_event c h room ev)])).
    rewrite IH. destruct (run c _ (k _)) as [t a]. simpl.
    rewrite <- app_assoc. reflexivity.
  - specialize (IH (room_send c h room ty ct)
                  (h ++ [ERoomSend room ty ct (room_send c h room ty ct)])).
    rewrite IH. destruct (run c _ (k _)) as [t a]. simpl.
    rewrite <- app_assoc. reflexivity.
  - specialize (IH (h ++ [ELog lvl fmt args])).
    rewrite IH. destruct (run c _ k) as [t a]. simpl.
    rewrite <- app_assoc. reflexivity.
Qed.

(* ===================================================================== *)
(** ** One run of a handler, against any client *)
(* ===================================================================== *)

Section Runs.

Variable make_pill : string -> string.
Variable c : AsyncClient.

Implicit Types (h : trace) (self : Callbacks) (room : MatrixRoom)
  (event : UnknownEvent) (id : string) (v : json) (k : hashable).

(** While the flag is down [_reaction] logs its debug line and returns. *)
Lemma reaction_while_syncing h self room event v :
  synced self = false ->
  run c h (_reaction make_pill room event v self)
  = ([reaction_entry room event], (self, Returned ExitSyncing)).
Proof.
  intros Hs. unfold_handlers. simpl. rewrite Hs. reflexivity.
Qed.


(** What one run of [_reaction] can do to [self], whatever the id is. *)
Lemma reaction_frame_any h self room event v :
  fst (snd (run c h (_reaction make_pill room event v self))) = self
  \/ exists k, hash_of v = Returned k
               /\ fst (snd (run c h (_reaction make_pill room event v self)))
                  = with_key k self.
Proof.
  walk; eauto.
Qed.

(** [_reaction] sends at most once, whatever the id is, and where it sends
    it adds the id to [self.pinned], which did not have it. *)
Lemma reaction_sends_any h self room event v :
  (sends (fst (run c h (_reaction make_pill room event v self))) = []
   /\ fst (snd (run c h (_reaction make_pill room event v self))) = self)
  \/ (length (sends (fst (run c h (_reaction make_pill room event v self)))) = 1
      /\ synced self = true
      /\ room_id room <> pins_room (config self)
      /\ exists k, hash_of v = Returned k
                   /\ in_pinned_key k self = false
                   /\ fst (snd (run c h (_reaction make_pill room event v self)))
                      = with_key k self).
Proof.
  walk; try (left; split; reflexivity).
  right. repeat split.
  - rewrite negb_false_iff in *. assumption.
  - apply String.eqb_neq. assumption.
  - eauto.
Qed.

(** What one run of [_reaction] can do to [self]. *)
Lemma reaction_frame h self room event id :
  fst (snd (run c h (_reaction make_pill room event id self))) = self
  \/ fst (snd (run c h (_reaction make_pill room event id self)))
     = with_pinned id self.
Proof.
  walk; auto.
Qed.

(** [_reaction] sends at most once, and where it sends it records the id,
    whatever the server answered to the send. *)
Lemma reaction_sends h self room event id :
  (sends (fst (run c h (_reaction make_pill room event id self))) = []
   /\ fst (snd (run c h (_reaction make_pill room event id self))) = self
   /\ snd (snd (run c h (_reaction make_pill room event id self)))
      <> Returned ExitPinned)
  \/ (length (sends (fst (run c h (_reaction make_pill room event id self)))) = 1
      /\ fst (snd (run c h (_reaction make_pill room event id self)))
         = with_pinned id self
      /\ snd (snd (run c h (_reaction make_pill room event id self)))
         = Returned ExitPinned
      /\ synced self = true /\ in_pinned id self = false).
Proof.
  walk; try (left; repeat split; solve [reflexivity | discriminate]).
  right. repeat split; auto. rewrite negb_false_iff in *. assumption.
Qed.

(** A reaction with another emoji ends without a send and without raising. *)
Lemma reaction_not_pin h self room event v key :
  reaction_key event = Returned key ->
  eq_str key pin_glyph = false ->
  sends (fst (run c h (_reaction make_pill room event v self))) = []
  /\ fst (snd (run c h (_reaction make_pill room event v self))) = self
  /\ returned (snd (snd (run c h (_reaction make_pill room event v self)))) = true.
Proof.
  intros Hk Hp. unfold_handlers. simpl. rewrite Hk.
  repeat (next_test; simpl); try (repeat split; reflexivity).
  all: rewrite Hp in *; discriminate.
Qed.



(** [unknown] raises before doing anything, or leaves its note, or hands
    the event id of an annotation, whatever it is as long as it is truthy,
    to [_reaction]. *)
Lemma unknown_run h self room event :
  (~ objects_where_present event
   /\ exists e, run c h (unknown make_pill room event self) = ([], (self, Raised e)))
  \/ run c h (unknown make_pill room event self)
     = ([unknown_note room event], (self, Returned None))
  \/ exists v,
       type event = "m.reaction"
       /\ relation_field event "event_id" = Some v
       /\ truthy v = true
       /\ relation_field event "rel_type" = Some (JStr "m.annotation")
       /\ run c h (unknown make_pill room event self)
          = (fst (run c h (_reaction make_pill room event v self)),
             (fst (snd (run c h (_reaction make_pill room event v self))),
              some_exit (snd (snd (run c h (_reaction make_pill room event v self)))))).
Proof.
  unfold unknown, relates_to, relation_field, relation_of, content_of, dict_get.
  destruct (String.eqb (type event) "m.reaction") eqn:Hty; [|right; left; reflexivity].
  apply String.eqb_eq in Hty.
  unfold bind, of_result, raise.
  destruct (source event !! "content") as [[| | | | |d]|] eqn:Hc;
    try (left; split; [misshapen Hc Hc|eexists; reflexivity]).
  - destruct (d !! "m.relates_to") as [[| | | | |r]|] eqn:Hr;
      try (left; split; [misshapen Hc Hr|eexists; reflexivity]).
    + cbn [pbind run fst snd].
      destruct (r !! "event_id") as [v|] eqn:Hid; [|right; left; reflexivity].
      destruct (truthy v) eqn:Htr; [|right; left; reflexivity].
      cbn [pbind run fst snd].
      destruct (r !! "rel_type") as [rt|] eqn:Hrt; [|right; left; reflexivity].
      destruct (eq_str rt "m.annotation") eqn:Hann; [|right; left; reflexivity].
      right; right. exists v.
      destruct rt; try discriminate. simpl in Hann. apply String.eqb_eq in Hann. subst.
      repeat split; auto.
      rewrite run_pbind.
      destruct (run c h (_reaction make_pill room event v self)) as [t [s1 [x|e]]];
        cbn [fst snd some_exit ret run]; rewrite app_nil_r; reflexivity.
    + right; left. reflexivity.
  - right; left. reflexivity.
Qed.

Lemma unknown_frame h self room event :
  fst (snd (run c h (unknown make_pill room event self))) = self \/
  exists v k, relation_field event "event_id" = Some v
              /\ hash_of v = Returned k
              /\ fst (snd (run c h (unknown make_pill room event self)))
                 = with_key k self.
Proof.
  destruct (unknown_run h self room event)
    as [[_ [e ->]]|[->|(v & _ & Hid & _ & _ & ->)]]; cbn [fst snd]; auto.
  destruct (reaction_frame_any h self room event v) as [->|(k & Hk & ->)];
    [left; reflexivity|right; exists v, k; auto].
Qed.

Lemma invite_frame h self room (event : InviteMemberEvent) :
  fst (snd (run c h (invite room event self))) = self.
Proof. walk; reflexivity. Qed.

(* ===================================================================== *)
(** ** The claims that hold for every client *)
(* ===================================================================== *)

(** C4 (as amended). [_reaction] tests in this order: the sync flag, then
    the room against the pins room, both before any fetch; then it fetches
    the original event, once, whatever the emoji and whatever is pinned,
    and returns on a fetch error, on an event that is still encrypted and
    on a message of the bot; and only with a fetched message of somebody
    else it tests the emoji, and after the emoji whether the id is pinned
    already.  The first test that matches ends the handler, and none of
    these exits sends or changes [self]: a run that does not end at line
    160 has sent nothing and recorded nothing. *)
Theorem reaction_check_order h self room event id :
  let out := run c h (_reaction make_pill room event id self) in
  (synced self = false ->
     snd (snd out) = Returned ExitSyncing /\ fetches (fst out) = []
     /\ sends (fst out) = [] /\ fst (snd out) = self)
  /\ (synced self = true -> room_id room = pins_room (config self) ->
     snd (snd out) = Returned ExitPinsRoom /\ fetches (fst out) = []
     /\ sends (fst out) = [] /\ fst (snd out) = self)
  /\ (synced self = true -> room_id room <> pins_room (config self) ->
     exists response,
       fetches (fst out) = [ERoomGetEvent (room_id room) id response]
       /\ (response = RoomGetEventError ->
             snd (snd out) = Returned ExitGetEventError)
       /\ (forall enc_sender,
             response = RoomGetEventResponse (Undecryptable enc_sender) ->
             snd (snd out) = Returned ExitUndecryptable)
       /\ (forall body formatted_body,
             response = RoomGetEventResponse
                          (RoomMessageText (user_id (config self)) body
                             formatted_body) ->
             snd (snd out) = Returned ExitOwnMessage)
       /\ forall msg_sender body formatted_body key,
            response = RoomGetEventResponse
                         (RoomMessageText msg_sender body formatted_body) ->
            msg_sender <> user_id (config self) ->
            reaction_key event = Returned key ->
            (eq_str key pin_glyph = false ->
               snd (snd out) = Returned ExitNotPin /\ sends (fst out) = [])
            /\ (eq_str key pin_glyph = true -> id ∈ pinned self ->
               snd (snd out) = Returned ExitAlreadyPinned /\ sends (fst out) = []))
  /\ (snd (snd out) <> Returned ExitPinned ->
     sends (fst out) = [] /\ fst (snd out) = self).
Proof.
  cbv zeta. split; [|split; [|split]].
  - intros Hs. rewrite (reaction_while_syncing h self room event id Hs).
    repeat split.
  - intros Hs Hroom. apply String.eqb_eq in Hroom.
    unfold_handlers. simpl. rewrite Hs, Hroom. simpl. repeat split.
  - intros Hs Hroom. apply String.eqb_neq in Hroom.
    exists (room_get_event c (h ++ [reaction_entry room event]) (room_id room) id).
    unfold_handlers. simpl. rewrite Hs, Hroom. simpl. fold (reaction_entry room event).
    destruct (room_get_event c _ _ _) as [|[ms body fb|es]] eqn:Hf; simpl.
    + split; [reflexivity|]. repeat split; intros; discriminate.
    + destruct (String.eqb ms (user_id (config self))) eqn:Hown; simpl.
      * split; [reflexivity|]. split; [discriminate|]. split; [discriminate|].
        split; [reflexivity|]. intros ms' b' f' key [= -> -> ->] Hne.
        apply String.eqb_eq in Hown. contradiction.
      * assert (Hnot : forall b' f',
                   RoomGetEventResponse (RoomMessageText ms body fb)
                   = RoomGetEventResponse
                       (RoomMessageText (user_id (config self)) b' f') ->
                   False).
        { intros b' f' [= -> _ _]. rewrite String.eqb_refl in Hown. discriminate. }
        destruct (reaction_key event) as [v|e] eqn:Hk; simpl.
        -- destruct (eq_str v pin_glyph) eqn:Hp; simpl.
           ++ destruct (in_pinned id self) eqn:Hin; simpl.
              ** split; [reflexivity|]. split; [discriminate|].
                 split; [discriminate|].
                 split; [intros b' f' He; destruct (Hnot b' f' He)|].
                 intros ms' b' f' key [= -> -> ->] _ [= <-].
                 split; [congruence|]. intros _ _. split; reflexivity.
              ** apply in_pinned_false in Hin.
                 destruct (plain_body ms body); simpl;
                   (split; [reflexivity|]); (split; [discriminate|]);
                   (split; [discriminate|]);
                   (split; [intros b' f' He; destruct (Hnot b' f' He)|]);
                   intros ms' b' f' key [= -> -> ->] _ [= <-];
                   (split; [congruence|]); intros _ Hmem; contradiction.
           ++ split; [reflexivity|]. split; [discriminate|].
              split; [discriminate|].
              split; [intros b' f' He; destruct (Hnot b' f' He)|].
              intros ms' b' f' key [= -> -> ->] _ [= <-].
              split; [intros _; split; reflexivity|congruence].
        -- split; [reflexivity|]. split; [discriminate|].
           split; [discriminate|].
           split; [intros b' f' He; destruct (Hnot b' f' He)|].
           intros; discriminate.
    + split; [reflexivity|]. split; [discriminate|].
      split; [reflexivity|]. split; intros; discriminate.
  - intros Hne.
    destruct (reaction_sends h self room event id)
      as [(Hs & Hst & _)|(_ & _ & Hr & _)]; [split; assumption|contradiction].
Qed.


(** C7 (as amended). [invite] joins the room of the invite, once at least
    and three times at most, and gives up only after three failed joins.
    It sleeps one second after every failed join, the third included, so
    up to three seconds in all; a successful join is the last join and no
    sleep follows it.  When the server fails the first two joins and
    accepts the third, [invite] joins three times, sleeps two seconds, and
    the last join is the accepted one. *)
Theorem invite_retries h self room (event : InviteMemberEvent) :
  let t := fst (run c h (invite room event self)) in
  1 <= length (joins t) <= 3
  /\ Forall (joins_room room) t
  /\ (List.filter is_joined t = [] -> length (joins t) = 3)
  /\ List.filter is_sleep t
     = repeat (ESleep 1) (length (List.filter is_failed_join t))
  /\ slept t = length (List.filter is_failed_join t)
  /\ slept t <= 3
  /\ joins (after_joined t) = [] /\ slept (after_joined t) = 0
  /\ (forall m1 m2 r,
        join_answers c h (room_id room)
          [JoinError m1; JoinError m2; JoinResponse r] ->
        joins t = [EJoin (room_id room) (JoinError m1);
                   EJoin (room_id room) (JoinError m2);
                   EJoin (room_id room) (JoinResponse r)]
        /\ slept t = 2
        /\ last t = Some (joined_line room)).
Proof.
  cbv zeta. split; [|split; [|split; [|split; [|split; [|split; [|split; [|split]]]]]]].
  - walk; simpl; lia.
  - walk; repeat constructor.
  - walk; simpl; intros; solve [reflexivity | discriminate].
  - walk; reflexivity.
  - walk; reflexivity.
  - walk; simpl; lia.
  - walk; reflexivity.
  - walk; reflexivity.
  - intros m1 m2 r Hj.
    unfold invite, bind, logger. cbn [pbind run fst snd seq join_attempts].
    unfold bind, client_join, logger, asyncio_sleep, ret.
    cbn [pbind run fst snd].
    set (e0 := ELog DEBUG _ []).
    rewrite (Hj [e0] (JoinError m1) eq_refl).
    cbn [pbind run fst snd]. rewrite <- !app_assoc. cbn [app].
    match goal with
    | |- context [join c (h ++ ?h') (room_id room)] =>
        rewrite (Hj h' (JoinError m2) eq_refl)
    end.
    cbn [pbind run fst snd]. rewrite <- !app_assoc. cbn [app].
    match goal with
    | |- context [join c (h ++ ?h') (room_id room)] =>
        rewrite (Hj h' (JoinResponse r) eq_refl)
    end.
    cbn [pbind run fst snd]. repeat split.
Qed.

(** C8. While [self.synced] is false a reaction is dropped: [_reaction],
    and [unknown] in front of it, fetch nothing and send nothing (the only
    trace is a debug line) and leave [self] as it was, so nothing is kept of
    the reaction; and [sync], when it comes, sets the flag and does nothing
    else: no call, and [self.pinned] as before. *)
Theorem sync_gate_drops_reactions h self room event id :
  synced self = false ->
  let out := run c h (_reaction make_pill room event id self) in
  let out_u := run c h (unknown make_pill room event self) in
  (fetches (fst out) = [] /\ sends (fst out) = [] /\ fst (snd out) = self)
  /\ (fetches (fst out_u) = [] /\ sends (fst out_u) = [] /\ fst (snd out_u) = self)
  /\ (forall response,
      let after := run c (h ++ fst out) (sync response (fst (snd out))) in
      fst after = [] /\ pinned (fst (snd after)) = pinned self
      /\ synced (fst (snd after)) = true).
Proof.
  intros Hs. cbv zeta.
  rewrite (reaction_while_syncing h self room event id Hs).
  cbn [fst snd].
  split; [repeat split|split; [|repeat split]].
  destruct (unknown_run h self room event)
    as [[_ [e ->]]|[->|(id' & _ & _ & _ & _ & ->)]]; cbn [fst snd];
    [repeat split ..|].
  rewrite (reaction_while_syncing h self room event id' Hs).
  repeat split.
Qed.

(** C9 (as amended). For a reaction-shaped event whose content and relation
    are dicts where they are present: when the content, the relation, the
    event id (or it is empty), the relation kind or the emoji is missing,
    [unknown] returns without raising, sends nothing and leaves [self] as
    it was, whatever else the event holds (the event id may be any value).
    A missing emoji counts as not the pin. *)
Theorem malformed_reaction_is_dropped h self room event :
  objects_where_present event ->
  malformed event ->
  returned (snd (snd (run c h (unknown make_pill room event self)))) = true
  /\ sends (fst (run c h (unknown make_pill room event self))) = []
  /\ fst (snd (run c h (unknown make_pill room event self))) = self.
Proof.
  intros Hshape Hmal.
  destruct (unknown_run h self room event)
    as [[Hno _]|[->|(v & _ & Hev & Htr & Hrt & ->)]].
  - contradiction.
  - repeat split.
  - cbn [fst snd].
    assert (Hkey : relation_field event "key" = None).
    { destruct Hmal as [H|[H|[H|[H|[H|H]]]]].
      - unfold relation_field, relation_of in Hev. rewrite H in Hev. discriminate.
      - unfold relation_field in Hev. rewrite H in Hev. discriminate.
      - congruence.
      - rewrite H in Hev. injection Hev as <-. discriminate Htr.
      - congruence.
      - exact H. }
    pose proof (reaction_key_of_field event _ Hev) as Hk. rewrite Hkey in Hk.
    destruct (reaction_not_pin h self room event v JNull Hk eq_refl)
      as (Hs & Hst & Hret).
    repeat split; auto.
    destruct (snd (snd (run c h (_reaction make_pill room event v self))));
      [reflexivity|discriminate].
Qed.

(** C10. A run of [_reaction] changes nothing of [self] but [self.pinned],
    and that only by adding its target id: the configuration and the sync
    flag stay, and what was pinned stays pinned.  The same holds for
    [unknown], the id being the event id of the relation (a string id goes
    to the strings of [self.pinned], and any other id that has a hash is
    the one value added to the rest of it).  [invite] and
    [decryption_failure] change nothing.  [sync] is the one handler that
    writes the flag, and it writes [True]. *)
Theorem handlers_frame h self :
  (forall room event id,
      let self' := fst (snd (run c h (_reaction make_pill room event id self))) in
      config self' = config self
      /\ self_command_prefix self' = self_command_prefix self
      /\ synced self' = synced self
      /\ (pinned self' = pinned self \/ pinned self' = {[ id ]} ∪ pinned self)
      /\ pinned self ⊆ pinned self'
      /\ pinned_other self' = pinned_other self)
  /\ (forall room event,
      let self' := fst (snd (run c h (unknown make_pill room event self))) in
      config self' = config self
      /\ self_command_prefix self' = self_command_prefix self
      /\ synced self' = synced self
      /\ (pinned self' = pinned self
          \/ exists id, relation_field event "event_id" = Some (JStr id)
                        /\ pinned self' = {[ id ]} ∪ pinned self)
      /\ pinned self ⊆ pinned self'
      /\ (self' = self
          \/ exists v k, relation_field event "event_id" = Some v
                         /\ hash_of v = Returned k
                         /\ self' = with_key k self)
      /\ pinned_other self ⊆ pinned_other self')
  /\ (forall room (event : InviteMemberEvent),
      fst (snd (run c h (invite room event self))) = self)
  /\ (forall room (event : MegolmEvent),
      fst (snd (run c h (decryption_failure room event self))) = self)
  /\ (forall response,
      let self' := fst (snd (run c h (sync response self))) in
      synced self' = true /\ pinned self' = pinned self
      /\ config self' = config self
      /\ self_command_prefix self' = self_command_prefix self
      /\ pinned_other self' = pinned_other self).
Proof.
  split; [|split; [|split; [|split]]].
  - intros room event id. cbv zeta.
    destruct (reaction_frame h self room event id) as [-> | ->];
      repeat split; auto; simpl; set_solver.
  - intros room event. cbv zeta.
    destruct (unknown_frame h self room event) as [-> | (v & k & Hv & Hk & ->)].
    + repeat split; auto; set_solver.
    + split; [destruct k; reflexivity|].
      split; [destruct k; reflexivity|].
      split; [destruct k; reflexivity|].
      split.
      { destruct k as [| | |s]; try (left; reflexivity).
        right. exists s. split; [|reflexivity].
        destruct v; simpl in Hk; try discriminate. congruence. }
      split; [destruct k; simpl; set_solver|].
      split; [right; exists v, k; auto|].
      destruct k; simpl; set_solver.
  - intros room event. apply invite_frame.
  - intros room event. reflexivity.
  - intros response. repeat split.
Qed.

End Runs.

(* ===================================================================== *)
(** ** The handlers on concrete events *)
(* ===================================================================== *)

Lemma starts_with_app (n b : string) : starts_with n (n +:+ b) = true.
Proof.
  induction n as [|a n IH]; simpl; [reflexivity|].
  rewrite Ascii.eqb_refl. exact IH.
Qed.

Lemma contains_here (n b : string) : contains n (n +:+ b) = true.
Proof.
  destruct n as [|a n]; [destruct b; reflexivity|].
  change (starts_with (String a n) (String a n +:+ b)
          || contains (String a n) (n +:+ b) = true).
  rewrite starts_with_app. reflexivity.
Qed.

Lemma contains_later (n a x : string) :
  contains n x = true -> contains n (a +:+ x) = true.
Proof.
  intros H. induction a as [|ch a IH]; simpl; [exact H|].
  rewrite IH. apply orb_true_r.
Qed.

(** C1. Bob pins Alice's message "hello" in a room that is not the pins
    room, after sync, for the first time.  One message goes to the pins room
    and [$E1] is recorded, and the plain text holds the body; but of the
    sender it holds the first character only ([sender[0]], line 127): the
    text is the same for any sender that begins with [@], and
    [@alice:example.org] is not in it. *)
Lemma pin_quotes_first_character_of_sender :
  let out := run (scripted [] (alice_says "hello" None) [RoomSendResponse "$s1"]) []
               (_reaction template_pill demo_room pin_of_bob "$E1" demo_synced) in
  snd (snd out) = Returned ExitPinned
  /\ sent_plain (fst out) = [("!pins:example.org", hello_plain)]
  /\ contains "@alice:example.org" hello_plain = false
  /\ contains "hello" hello_plain = true
  /\ in_pinned "$E1" (fst (snd out)) = true
  /\ (forall body, plain_body "@alice:example.org" body = plain_body "@" body).
Proof.
  cbv zeta. repeat split; vm_compute; reflexivity.
Qed.

(** C2. For the body of two lines "line1", "line2" the plain text has one
    quote marker, in front of the sender's first character, and no line of
    the body follows a marker: [body.join(...)] (line 124) puts the body
    between the characters of the marker, for every body. *)
Lemma join_quotes_no_line :
  plain_body "@alice:example.org" two_lines = Returned two_lines_plain
  /\ lines two_lines = ["line1"; "line2"]
  /\ lines two_lines_plain
     = [EmptyString; "> @ "; "line1"; "line2>line1"; "line2 "; EmptyString;
        "Pinned"; EmptyString]
  /\ count_sub "> " two_lines_plain = 1
  /\ (forall body, fallback_body body = nl +:+ body +:+ ">" +:+ body +:+ " ").
Proof.
  repeat split; vm_compute; reflexivity.
Qed.

(** C3. The server refuses the send ([RoomSendError]); [_reaction] does not
    look at the answer and records [$E1] all the same, so the same pin
    again leaves at the already-pinned test and nothing is ever sent. *)
Lemma failed_send_is_recorded :
  let cl := scripted [] (alice_says "hello" None) [RoomSendError] in
  let out := run cl [] (_reaction template_pill demo_room pin_of_bob "$E1" demo_synced) in
  let again := run cl (fst out)
                 (_reaction template_pill demo_room pin_of_bob "$E1" (fst (snd out))) in
  length (sends (fst out)) = 1
  /\ sent_ok (fst out) = []
  /\ in_pinned "$E1" (fst (snd out)) = true
  /\ snd (snd again) = Returned ExitAlreadyPinned
  /\ sends (fst again) = [].
Proof.
  cbv zeta. repeat split; vm_compute; reflexivity.
Qed.

(** C6. A body with markup in it and no formatted body: the HTML that is
    sent holds the body as it is.  For every body, [formatted] embeds the
    plain body unchanged when there is no formatted one. *)
Lemma body_reaches_html_unescaped :
  let out := run (scripted [] (alice_says markup_body None) [RoomSendResponse "$s1"]) []
               (_reaction template_pill demo_room pin_of_bob "$E1" demo_synced) in
  map (contains markup_body) (sent_html (fst out)) = [true]
  /\ (forall room_slug event_slug pill body,
        contains body
          (formatted room_slug event_slug pill (quote_body body None)) = true).
Proof.
  cbv zeta. split; [vm_compute; reflexivity|].
  intros room_slug event_slug pill body. unfold formatted, quote_body.
  do 22 apply contains_later. apply contains_here.
Qed.

(* ===================================================================== *)
(** ** Where the claims as stated fail, and instances of the theorems *)
(* ===================================================================== *)

(** C4 as stated fails: a reaction with another emoji is not dropped
    before the fetch.  Bob's "+1" on Alice's message is fetched. *)
Lemma non_pin_reaction_fetches_first :
  ~ (forall make_pill c h self room event id key,
        reaction_key event = Returned key ->
        eq_str key pin_glyph = false ->
        fetches (fst (run c h (_reaction make_pill room event id self))) = []).
Proof.
  intros H.
  specialize (H template_pill (scripted [] (alice_says "hello" None) [])
                [] demo_synced demo_room thumb_of_bob "$E1" (JStr "+1")
                eq_refl eq_refl).
  vm_compute in H. discriminate H.
Qed.

(** An instance of C4: with [$E1] pinned already, Bob's "+1" on it leaves at
    the emoji test, not at the already-pinned test. *)
Lemma reaction_check_order_witness :
  snd (snd (run (scripted [] (alice_says "hello" None) []) []
              (_reaction template_pill demo_room thumb_of_bob "$E1"
                 (with_pinned "$E1" demo_synced))))
  = Returned ExitNotPin.
Proof.
  pose proof (reaction_check_order template_pill
                (scripted [] (alice_says "hello" None) []) []
                (with_pinned "$E1" demo_synced) demo_room thumb_of_bob "$E1") as H.
  cbv zeta in H. destruct H as (_ & _ & H & _).
  destruct (H eq_refl) as (response & Hf & _ & _ & _ & Hrest).
  - vm_compute. discriminate.
  - vm_compute in Hf. injection Hf as <-.
    apply (Hrest "@alice:example.org" "hello" None (JStr "+1")).
    + reflexivity.
    + vm_compute. discriminate.
    + reflexivity.
    + reflexivity.
Defined.



(** C7 as stated fails: three failed joins are followed by three sleeps,
    three seconds and not two. *)
Lemma three_failed_joins_sleep_three :
  ~ (forall c h self room event,
        slept (fst (run c h (invite room event self))) <= 2).
Proof.
  intros H.
  specialize (H (scripted [JoinError "a"; JoinError "b"; JoinError "c"] no_events [])
                [] demo_synced demo_room carol_invites).
  vm_compute in H. lia.
Qed.

(** A scripted client answers the joins from its script. *)
Lemma scripted_join_answers (join_script : list JoinResult)
    (events : string -> json -> RoomGetEventResult)
    (send_script : list RoomSendResult) (room : string) :
  join_answers (scripted join_script events send_script) [] room join_script.
Proof.
  intros h' r Hn. simpl. apply nth_error_nth. exact Hn.
Qed.

(** An instance of C7: the join fails twice and then succeeds. *)
Lemma invite_retries_witness :
  slept (fst (run (scripted [JoinError "a"; JoinError "b";
                             JoinResponse "!lounge:example.org"] no_events [])
                [] (invite demo_room carol_invites demo_synced))) = 2.
Proof.
  pose proof (invite_retries
                (scripted [JoinError "a"; JoinError "b";
                           JoinResponse "!lounge:example.org"] no_events [])
                [] demo_synced demo_room carol_invites) as H.
  cbv zeta in H. destruct H as (_ & _ & _ & _ & _ & _ & _ & _ & H).
  destruct (H "a" "b" "!lounge:example.org") as (_ & Hs & _); [|exact Hs].
  apply scripted_join_answers.
Defined.

(** An instance of C8: a pin that arrives before the first sync. *)
Lemma sync_gate_drops_reactions_witness :
  sends (fst (run (scripted [] (alice_says "hello" None) [RoomSendResponse "$s1"]) []
                (unknown template_pill demo_room pin_of_bob (__init__ demo_config))))
  = [].
Proof.
  pose proof (sync_gate_drops_reactions template_pill
                (scripted [] (alice_says "hello" None) [RoomSendResponse "$s1"])
                [] (__init__ demo_config) demo_room pin_of_bob "$E1" eq_refl) as H.
  cbv zeta in H. destruct H as (_ & (_ & H & _) & _). exact H.
Defined.

(** C9 as stated fails: a relation that is there and is no dict makes the
    lookup raise. *)
Lemma misshapen_relation_raises :
  ~ (forall make_pill c h self room event,
        malformed event ->
        returned (snd (snd (run c h (unknown make_pill room event self)))) = true).
Proof.
  intros H.
  specialize (H template_pill (scripted [] no_events []) []
                demo_synced demo_room misrelated_event).
  assert (Hm : malformed misrelated_event).
  { right; right; left. reflexivity. }
  specialize (H Hm). vm_compute in H. discriminate H.
Qed.

(** An instance of C9: an annotation without the emoji. *)
Lemma malformed_reaction_is_dropped_witness :
  sends (fst (run (scripted [] (alice_says "hello" None) [RoomSendResponse "$s1"]) []
                (unknown template_pill demo_room keyless_event demo_synced))) = [].
Proof.
  apply (malformed_reaction_is_dropped template_pill
           (scripted [] (alice_says "hello" None) [RoomSendResponse "$s1"])
           [] demo_synced demo_room keyless_event).
  - split.
    + right. eexists. reflexivity.
    + right. eexists. reflexivity.
  - do 5 right. reflexivity.
Defined.

(* ===================================================================== *)
(** ** More of the handlers: what is sent, and what is not *)
(* ===================================================================== *)

Lemma append_assoc (a b d : string) : (a +:+ b) +:+ d = a +:+ (b +:+ d).
Proof.
  induction a as [|ch a IH]; [reflexivity|].
  change (String ch ((a +:+ b) +:+ d) = String ch (a +:+ (b +:+ d))).
  f_equal. exact IH.
Qed.

Lemma starts_with_left (n x y : string) :
  starts_with n x = true -> starts_with n (x +:+ y) = true.
Proof.
  revert x. induction n as [|a n IH]; intros x H; [reflexivity|].
  destruct x as [|b x]; [discriminate|].
  change (Ascii.eqb a b && starts_with n (x +:+ y) = true).
  simpl in H. apply andb_true_iff in H as [-> H]. apply IH. exact H.
Qed.

Lemma contains_left (n x y : string) :
  contains n x = true -> contains n (x +:+ y) = true.
Proof.
  induction x as [|b x IH]; intros H.
  - destruct n; [destruct y; reflexivity|discriminate].
  - change (starts_with n (String b x +:+ y) || contains n (x +:+ y) = true).
    simpl in H. apply orb_true_iff in H as [H|H].
    + rewrite (starts_with_left _ _ _ H). reflexivity.
    + rewrite (IH H). apply orb_true_r.
Qed.

Lemma contains_link (room_slug event_slug pill quote : string) :
  contains (deep_link room_slug event_slug)
    (formatted room_slug event_slug pill quote) = true.
Proof.
  unfold formatted, deep_link.
  do 7 apply contains_later.
  rewrite <- (append_assoc "/" event_slug).
  rewrite <- (append_assoc room_slug ("/" +:+ event_slug)).
  rewrite <- (append_assoc "https://matrix.to/#/" (room_slug +:+ "/" +:+ event_slug)).
  apply contains_here.
Qed.

Lemma contains_pill (room_slug event_slug pill quote : string) :
  contains pill (formatted room_slug event_slug pill quote) = true.
Proof.
  unfold formatted. do 15 apply contains_later. apply contains_here.
Qed.

Lemma contains_quote (room_slug event_slug pill quote : string) :
  contains quote (formatted room_slug event_slug pill quote) = true.
Proof.
  unfold formatted. do 22 apply contains_later. apply contains_here.
Qed.

Lemma plain_contains_body (ms body plain : string) :
  plain_body ms body = Returned plain -> contains body plain = true.
Proof.
  unfold plain_body. destruct (str_index0 ms); [|discriminate].
  intros [= <-].
  change (fallback_body body) with (nl +:+ body +:+ ">" +:+ body +:+ " ").
  do 4 apply contains_later. apply contains_left.
  apply contains_later. apply contains_here.
Qed.

Lemma fetches_app (t1 t2 : trace) :
  fetches (t1 ++ t2) = fetches t1 ++ fetches t2.
Proof. unfold fetches. apply List.filter_app. Qed.

Lemma ledger_with_key (k : hashable) (self : Callbacks) :
  in_pinned_key k self = false ->
  ledger (with_key k self) = S (ledger self).
Proof.
  intros Hin. unfold ledger.
  destruct k; simpl in *; apply bool_decide_eq_false in Hin;
    rewrite size_union by set_solver; rewrite size_singleton; lia.
Qed.

Section More.

Variable make_pill : string -> string.
Variable c : AsyncClient.

Implicit Types (h : trace) (self : Callbacks) (room : MatrixRoom)
  (event : UnknownEvent) (id : string) (v : json) (d : Delivery)
  (ds : list Delivery).

(** X1. [invite] ends with the line "Joined <room>" whatever the joins
    answered: when no join succeeded it has joined three times and logged
    "Unable to join room" before, and "Joined" follows all the same; when a
    join succeeded there is no "Unable to join room". *)
Theorem invite_always_logs_joined h self room (event : InviteMemberEvent) :
  let t := fst (run c h (invite room event self)) in
  last t = Some (joined_line room)
  /\ (List.filter is_joined t = [] ->
        length (joins t) = 3 /\ In (unable_line room) t)
  /\ (List.filter is_joined t <> [] -> ~ In (unable_line room) t).
Proof.
  unfold joined_line, unable_line.
  walk; repeat split; simpl; auto 20; try discriminate; try congruence.
  all: try (intros _; intuition discriminate).
Qed.

(** X2. [invite], [decryption_failure] and [sync] never fetch an event and
    never send a message, and they return without raising.  [invite] joins
    no room but the one of the invite; [decryption_failure] does nothing
    but log one line; [sync] does nothing at all to the outside. *)
Theorem quiet_handlers h self room :
  (forall event : InviteMemberEvent,
      let out := run c h (invite room event self) in
      fetches (fst out) = [] /\ sends (fst out) = []
      /\ Forall (joins_room room) (fst out)
      /\ snd (snd out) = Returned tt)
  /\ (forall event : MegolmEvent,
      let out := run c h (decryption_failure room event self) in
      fetches (fst out) = [] /\ sends (fst out) = [] /\ joins (fst out) = []
      /\ length (fst out) = 1
      /\ snd (snd out) = Returned tt)
  /\ (forall response,
      let out := run c h (sync response self) in
      fst out = [] /\ snd (snd out) = Returned tt).
Proof.
  split; [|split].
  - intros event. walk; repeat split; repeat constructor.
  - intros event. walk; repeat split.
  - intros response. walk; repeat split.
Qed.

(** X4. Whatever [_reaction] sends has, in its HTML, the link
    [https://matrix.to/#/<room>/<event>] of the room the reaction came
    from and the event it points to. *)
Theorem archive_links_target h self room event id :
  Forall (links_to (room_id room) id)
    (fst (run c h (_reaction make_pill room event id self))).
Proof.
  walk; repeat constructor. apply contains_link.
Qed.

(** X5. When the fetch brought a text message, whatever [_reaction] sends
    has the message's body in its plain text and, in its HTML, the pill of
    the message's sender and the formatted body of the message, or its
    plain body where it has no formatted one. *)
Theorem archive_embeds_message h self room event id ms body fb :
  fetches (fst (run c h (_reaction make_pill room event id self)))
  = [ERoomGetEvent (room_id room) id
       (RoomGetEventResponse (RoomMessageText ms body fb))] ->
  Forall (embeds (make_pill ms) body (quote_body body fb))
    (fst (run c h (_reaction make_pill room event id self))).
Proof.
  walk; intros Hf; try discriminate; injection Hf as -> -> ->;
    repeat constructor.
  - eapply plain_contains_body; eassumption.
  - apply contains_pill.
  - apply contains_quote.
Qed.

(** X6. A reaction to a message of the bot itself is never archived,
    whatever the emoji: nothing is sent and [self] stays as it was. *)
Theorem own_message_is_not_archived h self room event id body fb :
  fetches (fst (run c h (_reaction make_pill room event id self)))
  = [ERoomGetEvent (room_id room) id
       (RoomGetEventResponse (RoomMessageText (user_id (config self)) body fb))] ->
  sends (fst (run c h (_reaction make_pill room event id self))) = []
  /\ fst (snd (run c h (_reaction make_pill room event id self))) = self
  /\ snd (snd (run c h (_reaction make_pill room event id self)))
     = Returned ExitOwnMessage.
Proof.
  walk; intros Hf; try discriminate; injection Hf as -> -> ->;
    try (repeat split; reflexivity).
  all: rewrite String.eqb_refl in *; discriminate.
Qed.

(** X7. When the fetch fails, or brings an event that is still encrypted,
    [_reaction] logs one line (a warning, an error) after the fetch and
    returns: nothing is sent, and [self] stays as it was, so the id is not
    taken for pinned. *)
Theorem unfetched_event_is_not_archived h self room event id :
  (fetches (fst (run c h (_reaction make_pill room event id self)))
   = [ERoomGetEvent (room_id room) id RoomGetEventError] ->
   fst (run c h (_reaction make_pill room event id self))
   = [reaction_entry room event;
      ERoomGetEvent (room_id room) id RoomGetEventError;
      ELog WARNING "Error getting event that was reacted to (%s)" [JStr id]]
   /\ fst (snd (run c h (_reaction make_pill room event id self))) = self
   /\ snd (snd (run c h (_reaction make_pill room event id self)))
      = Returned ExitGetEventError)
  /\ (forall es,
      fetches (fst (run c h (_reaction make_pill room event id self)))
      = [ERoomGetEvent (room_id room) id (RoomGetEventResponse (Undecryptable es))] ->
      fst (run c h (_reaction make_pill room event id self))
      = [reaction_entry room event;
         ERoomGetEvent (room_id room) id (RoomGetEventResponse (Undecryptable es));
         ELog ERROR "Unable to decrypt event reacted to (%s)" [JStr id]]
      /\ fst (snd (run c h (_reaction make_pill room event id self))) = self
      /\ snd (snd (run c h (_reaction make_pill room event id self)))
         = Returned ExitUndecryptable).
Proof.
  unfold reaction_entry.
  split; [|intros es]; walk; intros Hf; try discriminate;
    try (injection Hf as ->); repeat split; reflexivity.
Qed.

(** X8. A reaction whose emoji is not the pin glyph (another emoji, a key
    that is no string, no key at all) never archives: [unknown] returns
    without raising, sends nothing and leaves [self] as it was, whatever
    the fetch brings. *)
Theorem other_emoji_never_archives h self room event :
  objects_where_present event ->
  relation_field event "key" <> Some (JStr pin_glyph) ->
  sends (fst (run c h (unknown make_pill room event self))) = []
  /\ fst (snd (run c h (unknown make_pill room event self))) = self
  /\ returned (snd (snd (run c h (unknown make_pill room event self)))) = true.
Proof.
  intros Hshape Hkey.
  destruct (unknown_run make_pill c h self room event)
    as [[Hno _]|[->|(v & _ & Hev & Htr & Hrt & ->)]].
  - contradiction.
  - repeat split.
  - cbn [fst snd].
    pose proof (reaction_key_of_field event _ Hev) as Hk.
    assert (Hp : eq_str (match relation_field event "key" with
                         | Some k => k | None => JNull end) pin_glyph = false).
    { destruct (relation_field event "key") as [[| | |s| |]|]; try reflexivity.
      simpl. apply String.eqb_neq. intros ->. apply Hkey. reflexivity. }
    destruct (reaction_not_pin make_pill c h self room event v _ Hk Hp)
      as (Hs & Hst & Hret).
    repeat split; auto.
    destruct (snd (snd (run c h (_reaction make_pill room event v self))));
      [reflexivity|discriminate].
Qed.

(** X9. A pin of a message whose sender is the empty string raises
    [IndexError] at [sender[0]] (line 127), after the fetch and before the
    send: nothing is sent and the id is not recorded. *)
Theorem empty_sender_raises_before_send h self room event id body fb :
  fetches (fst (run c h (_reaction make_pill room event id self)))
  = [ERoomGetEvent (room_id room) id
       (RoomGetEventResponse (RoomMessageText EmptyString body fb))] ->
  user_id (config self) <> EmptyString ->
  reaction_key event = Returned (JStr pin_glyph) ->
  id ∉ pinned self ->
  snd (snd (run c h (_reaction make_pill room event id self))) = Raised IndexError
  /\ sends (fst (run c h (_reaction make_pill room event id self))) = []
  /\ fst (snd (run c h (_reaction make_pill room event id self))) = self.
Proof.
  intros Hf Hown Hk Hin. apply in_pinned_false in Hin. revert Hf.
  unfold_handlers. simpl. rewrite Hk, Hin, eq_str_pin. simpl.
  repeat (next_test; simpl); intros Hf; try discriminate;
    injection Hf as -> -> ->; try (repeat split; reflexivity).
  - match goal with
    | H : String.eqb EmptyString _ = true |- _ =>
        apply String.eqb_eq in H; symmetry in H; contradiction
    end.
  - match goal with
    | H : plain_body EmptyString _ = Returned _ |- _ => discriminate H
    end.
  - match goal with
    | H : plain_body EmptyString _ = Raised _ |- _ => injection H as <-
    end.
    repeat split; reflexivity.
Qed.

(** X15. A pin whose event id is a list or a dict, on a fetched message of
    somebody else, raises [TypeError] at the test [reacted_to_id in
    self.pinned] (line 114), which hashes the id: after the fetch and
    before any send, and [self] stays as it was. *)
Theorem unhashable_id_raises_before_send h self room event v ms body fb :
  fetches (fst (run c h (_reaction make_pill room event v self)))
  = [ERoomGetEvent (room_id room) v
       (RoomGetEventResponse (RoomMessageText ms body fb))] ->
  ms <> user_id (config self) ->
  reaction_key event = Returned (JStr pin_glyph) ->
  hash_of v = Raised TypeError ->
  snd (snd (run c h (_reaction make_pill room event v self))) = Raised TypeError
  /\ sends (fst (run c h (_reaction make_pill room event v self))) = []
  /\ fst (snd (run c h (_reaction make_pill room event v self))) = self.
Proof.
  intros Hf Hown Hk Hh. apply String.eqb_neq in Hown. revert Hf.
  unfold_handlers. simpl. rewrite Hk, Hh, eq_str_pin. simpl.
  repeat (next_test; simpl); intros Hf; try discriminate;
    injection Hf as -> -> ->; try (repeat split; reflexivity).
  congruence.
Qed.

(** X10. An event whose type is not [m.reaction] is only logged by
    [unknown]: one debug line, no look at its content (so no exception
    whatever the content is), no call of the client, [self] unchanged. *)
Theorem unknown_ignores_other_types h self room event :
  type event <> "m.reaction" ->
  run c h (unknown make_pill room event self)
  = ([unknown_note room event], (self, Returned None)).
Proof.
  intros Hty. apply String.eqb_neq in Hty.
  unfold unknown. rewrite Hty. reflexivity.
Qed.

(** X11. A reaction-typed event whose relation is of another kind than
    [m.annotation] (an edit, a reply, no kind) never reaches [_reaction]:
    [unknown] logs its one debug line, calls nothing and changes nothing,
    also when the key is the pin glyph. *)
Theorem unknown_drops_other_relations h self room event :
  objects_where_present event ->
  relation_field event "rel_type" <> Some (JStr "m.annotation") ->
  run c h (unknown make_pill room event self)
  = ([unknown_note room event], (self, Returned None)).
Proof.
  intros Hshape Hrel.
  destruct (unknown_run make_pill c h self room event)
    as [[Hno _]|[->|(id & _ & _ & _ & Hrt & _)]].
  - contradiction.
  - reflexivity.
  - contradiction.
Qed.

Lemma invite_quiet h self room (event : InviteMemberEvent) :
  sends (fst (run c h (invite room event self))) = []
  /\ fetches (fst (run c h (invite room event self))) = [].
Proof. walk; split; reflexivity. Qed.

(** One delivery: the sends it makes are the ids it adds. *)
Lemma deliver_counts h self d :
  ledger (snd (deliver make_pill c h self d))
  = ledger self + length (sends (fst (deliver make_pill c h self d))).
Proof.
  destruct d as [room event|room event|room event|response];
    unfold deliver; cbn [fst snd].
  - rewrite invite_frame. destruct (invite_quiet h self room event) as [-> _].
    simpl. lia.
  - destruct (unknown_run make_pill c h self room event)
      as [[_ [e ->]]|[->|(v & _ & _ & _ & _ & ->)]]; cbn [fst snd].
    + simpl. lia.
    + simpl. lia.
    + destruct (reaction_sends_any make_pill c h self room event v)
        as [(-> & ->)|(-> & _ & _ & k & _ & Hin & ->)].
      * simpl. lia.
      * rewrite (ledger_with_key k self Hin). lia.
  - simpl. lia.
  - unfold ledger. simpl. lia.
Qed.

(** X12. Over any sequence of handler calls on one [Callbacks] object,
    with any client, the ledger [self.pinned] grows by exactly the number
    of messages sent: every send records one new id, and no id is recorded
    without a send (whether the send succeeded or not, and also where a
    handler raised). *)
Theorem ledger_counts_sends ds : forall h self,
  ledger (snd (deliver_all make_pill c h self ds))
  = ledger self + length (sends (fst (deliver_all make_pill c h self ds))).
Proof.
  induction ds as [|d ds IH]; intros h self; simpl; [lia|].
  rewrite IH, sends_app, length_app, deliver_counts. lia.
Qed.

Lemma deliver_synced h self d :
  synced (snd (deliver make_pill c h self d)) = synced self || is_sync d.
Proof.
  destruct d as [room event|room event|room event|response];
    unfold deliver; cbn [fst snd is_sync].
  - rewrite invite_frame. rewrite orb_false_r. reflexivity.
  - destruct (unknown_frame make_pill c h self room event)
      as [->|(v & k & _ & _ & ->)];
      [|destruct k]; simpl; rewrite orb_false_r; reflexivity.
  - rewrite orb_false_r. reflexivity.
  - rewrite orb_true_r. reflexivity.
Qed.

(** X13. After any sequence of handler calls the flag [synced] is set
    exactly when it was set before or [sync] was among the calls: no
    handler ever clears it, and none but [sync] sets it. *)
Theorem sync_flag_is_monotone ds : forall h self,
  synced (snd (deliver_all make_pill c h self ds))
  = synced self || existsb is_sync ds.
Proof.
  induction ds as [|d ds IH]; intros h self; simpl.
  - rewrite orb_false_r. reflexivity.
  - rewrite IH, deliver_synced, orb_assoc. reflexivity.
Qed.

Lemma deliver_before_sync h self d :
  synced self = false -> is_sync d = false ->
  fetches (fst (deliver make_pill c h self d)) = []
  /\ sends (fst (deliver make_pill c h self d)) = []
  /\ snd (deliver make_pill c h self d) = self.
Proof.
  intros Hs Hd.
  destruct d as [room event|room event|room event|response];
    unfold deliver; cbn [fst snd is_sync]; try discriminate.
  - rewrite invite_frame. destruct (invite_quiet h self room event) as [-> ->].
    repeat split.
  - destruct (unknown_run make_pill c h self room event)
      as [[_ [e ->]]|[->|(v & _ & _ & _ & _ & ->)]]; cbn [fst snd];
      [repeat split ..|].
    rewrite (reaction_while_syncing make_pill c h self room event v Hs).
    repeat split.
  - repeat split.
Qed.

(** X14. Before the first [sync], any sequence of invites, unknown events
    and decryption failures, of any length and with any content, fetches
    no event, sends no message and leaves [self] as it was. *)
Theorem nothing_happens_before_sync ds : forall h self,
  synced self = false ->
  existsb is_sync ds = false ->
  fetches (fst (deliver_all make_pill c h self ds)) = []
  /\ sends (fst (deliver_all make_pill c h self ds)) = []
  /\ snd (deliver_all make_pill c h self ds) = self.
Proof.
  induction ds as [|d ds IH]; intros h self Hs Hds; simpl.
  - repeat split.
  - simpl in Hds. apply orb_false_iff in Hds as [Hd Hds].
    destruct (deliver_before_sync h self d Hs Hd) as (Hf & Hse & Hst).
    rewrite fetches_app, sends_app, Hf, Hse, Hst.
    destruct (IH (h ++ fst (deliver make_pill c h self d)) self Hs Hds)
      as (-> & -> & ->).
    repeat split.
Qed.

Lemma reaction_to_pins_room h self room event v :
  Forall (to_pins_room (config self))
    (fst (run c h (_reaction make_pill room event v self))).
Proof. walk; repeat constructor. Qed.

Lemma deliver_to_pins_room h self d :
  Forall (to_pins_room (config self)) (fst (deliver make_pill c h self d))
  /\ config (snd (deliver make_pill c h self d)) = config self
  /\ length (sends (fst (deliver make_pill c h self d)))
     <= (if unknown_elsewhere (config self) d then 1 else 0).
Proof.
  destruct d as [room event|room event|room event|response];
    unfold deliver; cbn [fst snd unknown_elsewhere].
  - rewrite invite_frame. destruct (invite_quiet h self room event) as [-> _].
    split; [|split; [reflexivity|simpl; lia]]. walk; repeat constructor.
  - destruct (unknown_run make_pill c h self room event)
      as [[_ [e ->]]|[->|(v & _ & _ & _ & _ & ->)]]; cbn [fst snd].
    + split; [constructor|split; [reflexivity|simpl; lia]].
    + split; [repeat constructor|split; [reflexivity|simpl; lia]].
    + split; [apply reaction_to_pins_room|].
      destruct (reaction_sends_any make_pill c h self room event v)
        as [(-> & ->)|(-> & _ & Hroom & k & _ & _ & ->)].
      * split; [reflexivity|simpl; lia].
      * apply String.eqb_neq in Hroom. rewrite Hroom.
        split; [destruct k; reflexivity|simpl; lia].
  - split; [repeat constructor|split; [reflexivity|simpl; lia]].
  - split; [constructor|split; [reflexivity|simpl; lia]].
Qed.

(** X3. Over any sequence of handler calls, every message the handlers
    send is an [m.room.message] event of message type [m.text] and format
    [org.matrix.custom.html] to the pins room of the configuration, and
    the configuration is never changed.  Only an event handed to [unknown]
    from a room that is not the pins room can lead to a send, and to one
    at most: what arrives in the pins room itself is never archived, so
    no message goes to the room its reaction came from. *)
Theorem sends_go_to_pins_room ds : forall h self,
  Forall (to_pins_room (config self)) (fst (deliver_all make_pill c h self ds))
  /\ config (snd (deliver_all make_pill c h self ds)) = config self
  /\ length (sends (fst (deliver_all make_pill c h self ds)))
     <= length (List.filter (unknown_elsewhere (config self)) ds).
Proof.
  induction ds as [|d ds IH]; intros h self; simpl.
  - split; [constructor|split; [reflexivity|lia]].
  - destruct (deliver_to_pins_room h self d) as (Hd & Hc & Hn).
    destruct (IH (h ++ fst (deliver make_pill c h self d))
                (snd (deliver make_pill c h self d))) as (Hr & Hc' & Hn').
    rewrite Hc in Hr, Hc', Hn'. split; [|split; [exact Hc'|]].
    + apply Forall_app. split; assumption.
    + rewrite sends_app, length_app.
      destruct (unknown_elsewhere (config self) d); simpl; lia.
Qed.

End More.

(** Instances of the properties above. *)

(** An instance of X5: Bob pins Alice's message, which has a formatted
    body. *)
Lemma archive_embeds_message_witness :
  Forall (embeds (template_pill "@alice:example.org") "hello" "<b>hello</b>")
    (fst (run (scripted [] (alice_says "hello" (Some "<b>hello</b>"))
                 [RoomSendResponse "$s1"]) []
            (_reaction template_pill demo_room pin_of_bob "$E1" demo_synced))).
Proof.
  apply (archive_embeds_message template_pill
           (scripted [] (alice_says "hello" (Some "<b>hello</b>"))
              [RoomSendResponse "$s1"])
           [] demo_synced demo_room pin_of_bob "$E1"
           "@alice:example.org" "hello" (Some "<b>hello</b>")).
  reflexivity.
Defined.

(** An instance of X6: Bob pins a message of the bot. *)
Lemma own_message_is_not_archived_witness :
  sends (fst (run (scripted [] (bot_says "Pinned") [RoomSendResponse "$s1"]) []
                (_reaction template_pill demo_room pin_of_bob "$E1" demo_synced)))
  = [].
Proof.
  apply (own_message_is_not_archived template_pill
           (scripted [] (bot_says "Pinned") [RoomSendResponse "$s1"])
           [] demo_synced demo_room pin_of_bob "$E1" "Pinned" None).
  reflexivity.
Defined.

(** An instance of X8: Bob's "+1" on Alice's message. *)
Lemma other_emoji_never_archives_witness :
  sends (fst (run (scripted [] (alice_says "hello" None) [RoomSendResponse "$s1"]) []
                (unknown template_pill demo_room thumb_of_bob demo_synced)))
  = [].
Proof.
  apply (other_emoji_never_archives template_pill
           (scripted [] (alice_says "hello" None) [RoomSendResponse "$s1"])
           [] demo_synced demo_room thumb_of_bob).
  - split.
    + right. eexists. reflexivity.
    + right. eexists. reflexivity.
  - vm_compute. discriminate.
Defined.

(** An instance of X9: Bob pins a message that has no sender. *)
Lemma empty_sender_raises_before_send_witness :
  snd (snd (run (scripted [] (nobody_says "hello") [RoomSendResponse "$s1"]) []
              (_reaction template_pill demo_room pin_of_bob "$E1" demo_synced)))
  = Raised IndexError.
Proof.
  apply (empty_sender_raises_before_send template_pill
           (scripted [] (nobody_says "hello") [RoomSendResponse "$s1"])
           [] demo_synced demo_room pin_of_bob "$E1" "hello" None).
  - reflexivity.
  - discriminate.
  - reflexivity.
  - simpl. set_solver.
Defined.

(** An instance of X10: a sticker. *)
Lemma unknown_ignores_other_types_witness :
  run (scripted [] (alice_says "hello" None) [RoomSendResponse "$s1"]) []
    (unknown template_pill demo_room sticker_event demo_synced)
  = ([unknown_note demo_room sticker_event], (demo_synced, Returned None)).
Proof.
  apply (unknown_ignores_other_types template_pill
           (scripted [] (alice_says "hello" None) [RoomSendResponse "$s1"])
           [] demo_synced demo_room sticker_event).
  discriminate.
Defined.

(** An instance of X11: an edit of [$E1]. *)
Lemma unknown_drops_other_relations_witness :
  run (scripted [] (alice_says "hello" None) [RoomSendResponse "$s1"]) []
    (unknown template_pill demo_room edit_event demo_synced)
  = ([unknown_note demo_room edit_event], (demo_synced, Returned None)).
Proof.
  apply (unknown_drops_other_relations template_pill
           (scripted [] (alice_says "hello" None) [RoomSendResponse "$s1"])
           [] demo_synced demo_room edit_event).
  - split.
    + right. eexists. reflexivity.
    + right. eexists. reflexivity.
  - vm_compute. discriminate.
Defined.

(** An instance of X14: a pin, an invite and a decryption failure that
    arrive before the first sync. *)
Lemma nothing_happens_before_sync_witness :
  sends (fst (deliver_all template_pill
                (scripted [JoinResponse "!lounge:example.org"]
                   (alice_says "hello" None) [RoomSendResponse "$s1"])
                [] (__init__ demo_config)
                [DUnknown demo_room pin_of_bob;
                 DInvite demo_room carol_invites;
                 DDecryptionFailure demo_room undecryptable_event]))
  = [].
Proof.
  apply (nothing_happens_before_sync template_pill
           (scripted [JoinResponse "!lounge:example.org"]
              (alice_says "hello" None) [RoomSendResponse "$s1"])
           [DUnknown demo_room pin_of_bob;
            DInvite demo_room carol_invites;
            DDecryptionFailure demo_room undecryptable_event]
           [] (__init__ demo_config)).
  - reflexivity.
  - reflexivity.
Defined.

(** An instance of X15: Bob's pin names its target in a list. *)
Lemma unhashable_id_raises_before_send_witness :
  snd (snd (run (scripted [] (alice_says "hello" None) [RoomSendResponse "$s1"]) []
              (unknown template_pill demo_room pin_of_list demo_synced)))
  = Raised TypeError.
Proof.
  change (some_exit
            (snd (snd (run (scripted [] (alice_says "hello" None)
                              [RoomSendResponse "$s1"]) []
                         (_reaction template_pill demo_room pin_of_list list_id
                            demo_synced))))
          = Raised TypeError).
  destruct (unhashable_id_raises_before_send template_pill
              (scripted [] (alice_says "hello" None) [RoomSendResponse "$s1"])
              [] demo_synced demo_room pin_of_list list_id
              "@alice:example.org" "hello" None) as (-> & _ & _).
  - reflexivity.
  - discriminate.
  - reflexivity.
  - reflexivity.
  - reflexivity.
Defined.
